(** * GridDown HTTP server

    A shallow embedding of [scripts/griddown-server.py]: the handler hook
    [GridDownHandler.end_headers] that adds cache-control headers, the log
    filter [GridDownHandler.log_message], and the start-up sequence of
    [main].

    Request paths are Python [str] values decoded by [http.server] from
    ISO-8859-1, so every character is one byte: they are modelled as
    [string].  Indices are Python integers, modelled as [Z]. *)

From Stdlib Require Import ZArith String Ascii DecimalString Lia.
From stdpp Require Import base gmap strings list.

Open Scope string_scope.
Open Scope list_scope.
Open Scope Z_scope.

(** ** The Python built-ins the script relies on *)

Module Py.

(** [len(s)] *)
Definition len (s : string) : Z := Z.of_nat (String.length s).

(** [s.split(sep)] for a one-character separator.  The result of
    [str.split] with a separator is never empty, so it is given as its
    first piece together with the remaining pieces: [s.split(sep)[0]] is
    the first component. *)
Fixpoint split (sep : ascii) (s : string) : string * list string :=
  match s with
  | "" => ("", [])
  | String c r =>
      let '(w, ws) := split sep r in
      if Ascii.eqb c sep then ("", w :: ws) else (String c w, ws)
  end.

(** [s.rfind(c)] for a one-character needle: the highest index holding
    [c], or [-1]. *)
Fixpoint rfind (c : ascii) (s : string) : Z :=
  match s with
  | "" => -1
  | String a r =>
      let i := rfind c r in
      if 0 <=? i then i + 1 else if Ascii.eqb a c then 0 else -1
  end.

(** Slice bounds: a negative bound counts from the end, and every bound
    is clipped to [0 .. len]. *)
Definition clip (n i : Z) : Z :=
  if i <? 0 then Z.max 0 (n + i) else Z.min i n.

(** [s[lo:hi]] *)
Definition slice (s : string) (lo hi : Z) : string :=
  let a := clip (len s) lo in
  let b := clip (len s) hi in
  substring (Z.to_nat a) (Z.to_nat (b - a)) s.

(** [s[lo:]] *)
Definition slice_from (s : string) (lo : Z) : string := slice s lo (len s).

(** [s[:hi]] *)
Definition slice_to (s : string) (hi : Z) : string := slice s 0 hi.

(** [s.startswith(p)] *)
Definition startswith (s p : string) : bool := String.prefix p s.

(** [s.endswith(c)] for a one-character suffix. *)
Fixpoint endswith (s : string) (c : ascii) : bool :=
  match s with
  | "" => false
  | String a "" => Ascii.eqb a c
  | String _ r => endswith r c
  end.

(** [s.rstrip(c)] for a one-character set. *)
Fixpoint rstrip (s : string) (c : ascii) : string :=
  match s with
  | "" => ""
  | String a r =>
      match rstrip r c with
      | "" => if Ascii.eqb a c then "" else String a ""
      | r' => String a r'
      end
  end.

(** [s == c * len(s)]: the string consists of copies of [c] only. *)
Fixpoint all_char (c : ascii) (s : string) : bool :=
  match s with
  | "" => true
  | String a r => Ascii.eqb a c && all_char c r
  end.

(** [str(n)] for an integer. *)
Definition str (n : Z) : string := NilEmpty.string_of_int (Z.to_int n).

(** [sorted(l)] on strings (ordered by code point). *)
Fixpoint insert_sorted (x : string) (l : list string) : list string :=
  match l with
  | [] => [x]
  | y :: l' => if String.leb x y then x :: l else y :: insert_sorted x l'
  end.

Definition sorted (l : list string) : list string :=
  foldr insert_sorted [] l.

(** [sep.join(l)] *)
Definition join (sep : string) (l : list string) : string :=
  String.concat sep l.

(** The values that reach [log_message] through [*args]. *)
Inductive object : Type :=
  | Str (s : string)
  | Int (n : Z)
  | NoneObj.

End Py.

(** ** [os.path] on a POSIX host *)

Module posixpath.

(** [os.path.basename(p)]:
<<
    i = p.rfind('/') + 1
    return p[i:]
>> *)
Definition basename (p : string) : string :=
  let i := Py.rfind "/" p + 1 in
  Py.slice_from p i.

(** The loop of [genericpath._splitext] that skips leading dots:
<<
    while filenameIndex < dotIndex:
        if p[filenameIndex:filenameIndex+1] != extsep:
            return p[:dotIndex], p[dotIndex:]
        filenameIndex += 1
>>
    [n] is the number of iterations left, [dotIndex - filenameIndex].
    The result is [true] when the loop returns the split pair and [false]
    when it runs to its end. *)
Fixpoint skip_leading_dots (p : string) (extsep : ascii) (n : nat)
    (filenameIndex : Z) : bool :=
  match n with
  | O => false
  | S n' =>
      if negb (String.eqb (Py.slice p filenameIndex (filenameIndex + 1))
                          (String extsep ""))
      then true
      else skip_leading_dots p extsep n' (filenameIndex + 1)
  end.

(** [genericpath._splitext(p, sep, None, extsep)] *)
Definition _splitext (p : string) (sep extsep : ascii) : string * string :=
  let sepIndex := Py.rfind sep p in
  let dotIndex := Py.rfind extsep p in
  if (sepIndex <? dotIndex)
     && skip_leading_dots p extsep (Z.to_nat (dotIndex - (sepIndex + 1)))
          (sepIndex + 1)
  then (Py.slice_to p dotIndex, Py.slice_from p dotIndex)
  else (p, Py.slice_to p 0).

(** [os.path.splitext(p)] *)
Definition splitext (p : string) : string * string := _splitext p "/" ".".

(** [os.path.join(a, b)]:
<<
    if b.startswith('/'):              path = b
    elif not path or path.endswith('/'): path += b
    else:                              path += '/' + b
>> *)
Definition join (a b : string) : string :=
  if Py.startswith b "/" then b
  else if String.eqb a "" || Py.endswith a "/" then a +:+ b
  else a +:+ "/" +:+ b.

(** [os.path.dirname(p)]:
<<
    i = p.rfind('/') + 1
    head = p[:i]
    if head and head != '/'*len(head):
        head = head.rstrip('/')
    return head
>> *)
Definition dirname (p : string) : string :=
  let i := Py.rfind "/" p + 1 in
  let head := Py.slice_to p i in
  if negb (String.eqb head "") && negb (Py.all_char "/" head)
  then Py.rstrip head "/"
  else head.

End posixpath.

(** ** The request handler *)

(** What [http.server] keeps in [_headers_buffer] and writes to [wfile]
    for an HTTP/1.x request: the status line put there by
    [send_response], one line for each [send_header], and the blank line
    that [end_headers] adds. *)
Inductive line : Type :=
  | StatusLine (code : Z) (message : string)
  | HeaderLine (keyword value : string)
  | EndOfHeaders.

(** The part of a handler instance the script reads or writes, for a
    request whose line has been parsed: [self.path] is set and the request
    is not an HTTP/0.9 one.  [Server.instance] below is the instance
    without these two conditions.  [stderr] holds the messages handed to
    the base class's [log_message], as the format and its arguments. *)
Record handler : Type := mkHandler {
  path : string;
  requestline : string;
  headers_buffer : list line;
  wfile : list line;
  stderr : list (string * list Py.object)
}.

(** [BaseHTTPRequestHandler.send_header(keyword, value)] when
    [request_version] is not [HTTP/0.9]. *)
Definition send_header (keyword value : string) (self : handler) : handler :=
  mkHandler (path self) (requestline self)
    (headers_buffer self ++ [HeaderLine keyword value])
    (wfile self) (stderr self).

(** [BaseHTTPRequestHandler.end_headers()] when [request_version] is not
    [HTTP/0.9]: append the blank line, write the buffer out and empty
    it. *)
Definition super_end_headers (self : handler) : handler :=
  mkHandler (path self) (requestline self)
    []
    (wfile self ++ (headers_buffer self ++ [EndOfHeaders]))
    (stderr self).

(** [BaseHTTPRequestHandler.log_message(format, *args)] *)
Definition super_log_message (format : string) (args : list Py.object)
    (self : handler) : handler :=
  mkHandler (path self) (requestline self) (headers_buffer self)
    (wfile self) (stderr self ++ [(format, args)]).

(** Files that must never be served from browser HTTP cache *)
Definition NO_CACHE_FILES : gset string := {[ "sw.js"; "manifest.json" ]}.

(** File extensions that should get short revalidation cache headers *)
Definition REVALIDATE_EXTENSIONS : gset string := {[ ".js"; ".css"; ".html" ]}.

(** Statements of a method body, run in order. *)
Definition then_ (f g : handler -> handler) : handler -> handler :=
  fun self => g (f self).
Infix ">>" := then_ (at level 61, left associativity).

Definition pass : handler -> handler := fun self => self.

(** [basename = os.path.basename(self.path.split('?')[0].split('#')[0])] *)
Definition request_basename (self : handler) : string :=
  posixpath.basename (Py.split "#" (Py.split "?" (path self)).1).1.

(** [GridDownHandler.end_headers] *)
Definition end_headers (self : handler) : handler :=
  let basename := request_basename self in
  let '(_, ext) := posixpath.splitext basename in
  ((if bool_decide (basename ∈ NO_CACHE_FILES) then
      send_header "Cache-Control" "no-cache, no-store, must-revalidate" >>
      send_header "Pragma" "no-cache" >>
      send_header "Expires" "0"
    else if bool_decide (ext ∈ REVALIDATE_EXTENSIONS) then
      send_header "Cache-Control" "no-cache"
    else pass) >>
   super_end_headers) self.

(** [GridDownHandler.log_message] *)
Definition log_message (format : string) (args : list Py.object)
    (self : handler) : handler :=
  let status :=
    if 1 <? Z.of_nat (length args) then nth 1 args Py.NoneObj
    else Py.Str "" in
  match status with
  | Py.Str s =>
      if Py.startswith s "4" || Py.startswith s "5"
      then super_log_message format args self
      else self
  | _ => self
  end.

(** The handler class, as far as [main] changes it: the function bound to
    its [log_message] attribute. *)
Record handler_class : Type := mkClass {
  cls_log_message : string -> list Py.object -> handler -> handler
}.

Definition GridDownHandler : handler_class := mkClass log_message.




(** [BaseHTTPRequestHandler.log_error(format, *args)], which [send_error]
    calls with the format [code %d, message %s]:
<<
    self.log_message(format, *args)
>> *)
Definition log_error (cls : handler_class) (format : string)
    (args : list Py.object) (self : handler) : handler :=
  cls_log_message cls format args self.

(** ** The handler instance at any point of a connection *)

Module Server.

(** A handler instance as [http.server] runs it.  [self.path] is an
    attribute that exists only once [parse_request] has assigned it, at
    the end of a well-formed request line; the error responses for an
    over-long, ill-formed or unsupported request line are sent before
    that.  [request_version] is [HTTP/0.9] for a request line without a
    version. *)
Record instance : Type := mkInstance {
  path : option string;
  request_version : string;
  requestline : string;
  headers_buffer : list line;
  wfile : list line;
  stderr : list (string * list Py.object)
}.

(** How a method call ends: it returns, or it raises with the instance
    as it is at that point. *)
Inductive result : Type :=
  | Returns (self : instance)
  | Raises (exception : string) (self : instance).

(** [BaseHTTPRequestHandler.send_header(keyword, value)]:
<<
    if self.request_version != 'HTTP/0.9':
        self._headers_buffer.append(...)
>>
    The part on the [Connection] keyword is left out: the script sends no
    such header. *)
Definition send_header (keyword value : string) (self : instance) : instance :=
  if negb (String.eqb (request_version self) "HTTP/0.9") then
    mkInstance (path self) (request_version self) (requestline self)
      (headers_buffer self ++ [HeaderLine keyword value])
      (wfile self) (stderr self)
  else self.

(** [BaseHTTPRequestHandler.end_headers()]:
<<
    if self.request_version != 'HTTP/0.9':
        self._headers_buffer.append(b"\r\n")
        self.flush_headers()
>> *)
Definition super_end_headers (self : instance) : instance :=
  if negb (String.eqb (request_version self) "HTTP/0.9") then
    mkInstance (path self) (request_version self) (requestline self)
      []
      (wfile self ++ (headers_buffer self ++ [EndOfHeaders]))
      (stderr self)
  else self.

(** [GridDownHandler.end_headers]; reading [self.path] raises
    [AttributeError] when the attribute is not set. *)
Definition end_headers (self : instance) : result :=
  match path self with
  | None => Raises "AttributeError" self
  | Some self_path =>
      let basename :=
        posixpath.basename (Py.split "#" (Py.split "?" self_path).1).1 in
      let '(_, ext) := posixpath.splitext basename in
      let self :=
        if bool_decide (basename ∈ NO_CACHE_FILES) then
          send_header "Expires" "0"
            (send_header "Pragma" "no-cache"
               (send_header "Cache-Control"
                  "no-cache, no-store, must-revalidate" self))
        else if bool_decide (ext ∈ REVALIDATE_EXTENSIONS) then
          send_header "Cache-Control" "no-cache" self
        else self in
      Returns (super_end_headers self)
  end.

End Server.

(** ** Start-up *)

(** The parsed command line. *)
Record args : Type := mkArgs {
  port : Z;
  dir : option string;
  verbose : bool
}.

(** What [main] asks of the operating system: [os.path.isfile],
    [os.path.expanduser], and the value of [os.path.abspath(__file__)]. *)
Record os_env : Type := mkEnv {
  isfile : string -> bool;
  expanduser : string -> string;
  abspath_file : string
}.

(** The observable steps of [main]. *)
Inductive event : Type :=
  | Print (s : string)
  | SysExit (status : Z)
  | Chdir (d : string)
  | HTTPServer (host : string) (port : Z)
  | ServeForever
  | ServerClose.

(** How [main] leaves start-up: the process has exited, or it is in
    [serve_forever] with the given handler class. *)
Inductive outcome : Type :=
  | Exited (status : Z)
  | Serving (cls : handler_class).

(** Determine serve directory *)
Definition serve_dir (a : args) (env : os_env) : string :=
  match dir a with
  | Some d =>
      if negb (String.eqb d "") then expanduser env d
      else posixpath.dirname (posixpath.dirname (abspath_file env))
  | None => posixpath.dirname (posixpath.dirname (abspath_file env))
  end.

Definition newline : string := String (ascii_of_nat 10) "".

(** [main], up to and including the call of [serve_forever]. *)
Definition main (a : args) (env : os_env) : list event * outcome :=
  let serve_dir := serve_dir a env in
  if negb (isfile env (posixpath.join serve_dir "sw.js")) then
    ([ Print ("Error: sw.js not found in " +:+ serve_dir);
       Print "Make sure you're serving the GridDown directory.";
       SysExit 1 ],
     Exited 1)
  else
    let cls :=
      if verbose a then mkClass super_log_message else GridDownHandler in
    ([ Chdir serve_dir;
       HTTPServer "0.0.0.0" (port a);
       Print "GridDown server v1.0";
       Print ("Serving: " +:+ serve_dir);
       Print ("URL:     http://localhost:" +:+ Py.str (port a));
       Print "";
       Print ("Cache-Control: no-cache, no-store applied to: "
              +:+ Py.join ", " (Py.sorted (elements NO_CACHE_FILES)));
       Print ("Cache-Control: no-cache (revalidate) applied to: "
              +:+ Py.join ", " (Py.sorted (elements REVALIDATE_EXTENSIONS)));
       Print "Press Ctrl+C to stop.";
       ServeForever ],
     Serving cls).

(** The [except KeyboardInterrupt] branch around [serve_forever]. *)
Definition on_keyboard_interrupt : list event :=
  [ Print (newline +:+ "Server stopped."); ServerClose ].

(** ** Specification vocabulary *)

(** The handler after [end_headers] when the hook has added the lines
    [added]: the buffered lines, the added lines and the blank line are on
    the wire, and nothing else has changed. *)
Definition finalized (self : handler) (added : list line) : handler :=
  mkHandler (path self) (requestline self)
    []
    (wfile self ++ (headers_buffer self ++ added ++ [EndOfHeaders]))
    (stderr self).

Definition no_cache_headers : list line :=
  [ HeaderLine "Cache-Control" "no-cache, no-store, must-revalidate";
    HeaderLine "Pragma" "no-cache";
    HeaderLine "Expires" "0" ].

Definition revalidate_headers : list line :=
  [ HeaderLine "Cache-Control" "no-cache" ].

(** A request for [p] on a fresh connection, before any response line has
    been buffered. *)
Definition request (p : string) : handler :=
  mkHandler p ("GET " +:+ p +:+ " HTTP/1.1") [] [] [].

(** The extension [end_headers] computes for a request. *)
Definition request_ext (self : handler) : string :=
  (posixpath.splitext (request_basename self)).2.

(** The handler once [send_response(code, message)] has buffered the
    status line of a response to a request for [p]. *)
Definition responding (p : string) (code : Z) (message : string) : handler :=
  mkHandler p ("GET " +:+ p +:+ " HTTP/1.1")
    [StatusLine code message; HeaderLine "Server" "SimpleHTTP/0.6"] [] [].

(** The test [log_message] applies to a status that is a string. *)
Definition error_status (s : string) : bool :=
  Py.startswith s "4" || Py.startswith s "5".

(** A host on which [sw.js] exists in [/srv/GridDown] only, with the
    script installed under [/opt/tools/scripts]. *)
Definition sample_env : os_env :=
  mkEnv (fun f => String.eqb f "/srv/GridDown/sw.js")
        (fun d => d)
        "/opt/tools/scripts/griddown-server.py".

(** An ASCII capital letter. *)
Definition is_upper (c : ascii) : bool :=
  (65 <=? nat_of_ascii c)%nat && (nat_of_ascii c <=? 90)%nat.

(** The end of a request path that the hook cuts off: nothing, or a query
    string or fragment with its mark. *)
Definition cut_off (tail : string) : Prop :=
  tail = "" \/ exists rest, tail = String "?" rest \/ tail = String "#" rest.

(** An instance whose path is set to [p], seen as a [handler]. *)
Definition to_handler (p : string) (self : Server.instance) : handler :=
  mkHandler p (Server.requestline self) (Server.headers_buffer self)
    (Server.wfile self) (Server.stderr self).

(** A [handler] seen as an instance with the given request version. *)
Definition of_handler (version : string) (h : handler) : Server.instance :=
  Server.mkInstance (Some (path h)) version (requestline h)
    (headers_buffer h) (wfile h) (stderr h).

(** The instance when [send_error] answers the HTTP/0.9 request
    [GET /missing.js] with 404: for this version [send_response] has
    buffered nothing. *)
Definition simple_request_not_found : Server.instance :=
  Server.mkInstance (Some "/missing.js") "HTTP/0.9" "GET /missing.js"
    [] [] [].

(** The instance when [handle_one_request] answers an over-long request
    line with 414: [request_version] and [requestline] are empty and
    [self.path] has not been assigned. *)
Definition uri_too_long : Server.instance :=
  Server.mkInstance None "" ""
    [StatusLine 414 "Request-URI Too Long";
     HeaderLine "Server" "SimpleHTTP/0.6";
     HeaderLine "Connection" "close"] [] [].

(** The instance when an HTTP/1.1 request for [p] is answered with
    [code]. *)
Definition responding_http11 (p : string) (code : Z) (message : string)
    : Server.instance :=
  of_handler "HTTP/1.1" (responding p code message).

(** * Examples *)

Example basename_examples :
  map posixpath.basename ["/sw.js"; "/"; "/a/b/app.min.js"; "x"; ""]
  = ["sw.js"; ""; "app.min.js"; "x"; ""].
Proof. vm_compute. reflexivity. Qed.

Example splitext_examples :
  map posixpath.splitext ["sw.js"; "app.min.js"; ".js"; "..js"; "a..js"; ""; "a."; "x/.b"]
  = [("sw", ".js"); ("app.min", ".js"); (".js", ""); ("..js", ""); ("a.", ".js");
     ("", ""); ("a", "."); ("x/.b", "")].
Proof. vm_compute. reflexivity. Qed.

Example end_headers_examples :
  map (fun p => wfile (end_headers (request p)))
    ["/sw.js"; "/manifest.json"; "/app.js"; "/styles.css?x=1"; "/index.html"; "/logo.png"]
  = [ no_cache_headers ++ [EndOfHeaders]; no_cache_headers ++ [EndOfHeaders];
      revalidate_headers ++ [EndOfHeaders]; revalidate_headers ++ [EndOfHeaders];
      revalidate_headers ++ [EndOfHeaders]; [EndOfHeaders] ].
Proof. vm_compute. reflexivity. Qed.

Example banner_sets :
  Py.join ", " (Py.sorted (elements NO_CACHE_FILES)) = "manifest.json, sw.js"
  /\ Py.join ", " (Py.sorted (elements REVALIDATE_EXTENSIONS)) = ".css, .html, .js".
Proof. vm_compute. split; reflexivity. Qed.

Example dirname_examples :
  map posixpath.dirname ["/home/u/GridDown/scripts/griddown-server.py"; "/home/u/GridDown/scripts"; "/x"; "x"; "//x"; "/a//b"]
  = ["/home/u/GridDown/scripts"; "/home/u/GridDown"; "/"; ""; "//"; "/a"].
Proof. vm_compute. reflexivity. Qed.

Example join_examples :
  map (fun a => posixpath.join a "sw.js") ["/srv/app"; "/srv/app/"; ""; "/"]
  = ["/srv/app/sw.js"; "/srv/app/sw.js"; "sw.js"; "/sw.js"].
Proof. vm_compute. reflexivity. Qed.

(** * Facts about the string operations *)

Section StringFacts.

Implicit Types (c a : ascii) (s p q r : string).

Lemma app_empty q : "" +:+ q = q.
Proof. reflexivity. Qed.

Lemma app_cons a s q : String a s +:+ q = String a (s +:+ q).
Proof. reflexivity. Qed.

Lemma len_nonneg s : 0 <= Py.len s.
Proof. unfold Py.len. lia. Qed.

Lemma len_cons a s : Py.len (String a s) = Py.len s + 1.
Proof. unfold Py.len. simpl String.length. lia. Qed.

Lemma len_app s q : Py.len (s +:+ q) = Py.len s + Py.len q.
Proof.
  induction s as [|a s IH].
  - rewrite app_empty. change (Py.len "") with 0. lia.
  - rewrite app_cons, !len_cons, IH. lia.
Qed.

(** ** [split] *)

Lemma split_fst_cons c a s :
  (Py.split c (String a s)).1
  = if Ascii.eqb a c then "" else String a (Py.split c s).1.
Proof. simpl. destruct (Py.split c s). now destruct (Ascii.eqb a c). Qed.

(** The first piece is the text before the first separator. *)
Lemma split_fst_no_sep c s : c ∉ list_ascii_of_string (Py.split c s).1.
Proof.
  induction s as [|a s IH].
  - simpl. apply not_elem_of_nil.
  - rewrite split_fst_cons. destruct (Ascii.eqb_spec a c) as [->|Hne].
    + simpl. apply not_elem_of_nil.
    + simpl. apply not_elem_of_cons. split; [congruence | exact IH].
Qed.

Lemma split_fst_prefix c s :
  s = (Py.split c s).1
  \/ exists rest, s = (Py.split c s).1 +:+ String c rest.
Proof.
  induction s as [|a s IH].
  - now left.
  - rewrite split_fst_cons. destruct (Ascii.eqb_spec a c) as [->|Hne].
    + right. exists s. reflexivity.
    + destruct IH as [IH|[rest IH]].
      * left. now rewrite <- IH.
      * right. exists rest. rewrite app_cons. now rewrite <- IH.
Qed.

(** Text after a separator never reaches the first piece. *)
Lemma split_fst_app_sep c p q :
  (Py.split c (p +:+ String c q)).1 = (Py.split c p).1.
Proof.
  induction p as [|a p IH].
  - rewrite app_empty, split_fst_cons, Ascii.eqb_refl. reflexivity.
  - rewrite app_cons, !split_fst_cons, IH. reflexivity.
Qed.

(** Cutting at [c] and then at [d] forgets everything from a [d] on. *)
Lemma split_split_app_sep c d p q :
  (Py.split d (Py.split c (p +:+ String d q)).1).1
  = (Py.split d (Py.split c p).1).1.
Proof.
  induction p as [|a p IH].
  - rewrite app_empty, split_fst_cons.
    destruct (Ascii.eqb d c); [reflexivity|].
    rewrite split_fst_cons, Ascii.eqb_refl. reflexivity.
  - rewrite app_cons, !(split_fst_cons c a).
    destruct (Ascii.eqb a c); [reflexivity|].
    rewrite !(split_fst_cons d a), IH. reflexivity.
Qed.

(** ** [rfind] *)

Lemma rfind_cons c a s :
  Py.rfind c (String a s)
  = if 0 <=? Py.rfind c s then Py.rfind c s + 1
    else if Ascii.eqb a c then 0 else -1.
Proof. reflexivity. Qed.

Lemma rfind_bounds c s : -1 <= Py.rfind c s < Py.len s.
Proof.
  induction s as [|a s IH].
  - change (Py.rfind c "") with (-1). change (Py.len "") with 0. lia.
  - rewrite rfind_cons, len_cons.
    destruct (Z.leb_spec 0 (Py.rfind c s)); [lia|].
    destruct (Ascii.eqb a c); lia.
Qed.

Lemma rfind_absent c s :
  c ∉ list_ascii_of_string s -> Py.rfind c s = -1.
Proof.
  induction s as [|a s IH]; [reflexivity|].
  intros Hn. simpl in Hn. apply not_elem_of_cons in Hn as [Hne Hn].
  rewrite rfind_cons, (IH Hn).
  destruct (Z.leb_spec 0 (-1)); [lia|].
  destruct (Ascii.eqb_spec a c); congruence.
Qed.

(** The last occurrence: nothing equal to [c] follows it. *)
Lemma rfind_app_last c r s :
  c ∉ list_ascii_of_string s ->
  Py.rfind c (r +:+ String c s) = Py.len r.
Proof.
  intros Hn. induction r as [|a r IH].
  - rewrite app_empty, rfind_cons, (rfind_absent _ _ Hn), Ascii.eqb_refl.
    reflexivity.
  - rewrite app_cons, rfind_cons, IH, len_cons.
    pose proof (len_nonneg r).
    destruct (Z.leb_spec 0 (Py.len r)); lia.
Qed.

(** ** Slices *)

Lemma substring_0_0 s : substring 0 0 s = "".
Proof. now destruct s. Qed.

Lemma substring_0_app r s : substring 0 (String.length r) (r +:+ s) = r.
Proof.
  induction r as [|a r IH].
  - apply substring_0_0.
  - rewrite app_cons. simpl. now rewrite IH.
Qed.

Lemma substring_all s : substring 0 (String.length s) s = s.
Proof. induction s as [|a s IH]; simpl; [reflexivity | now rewrite IH]. Qed.

Lemma substring_skip_app r s n :
  substring (String.length r) n (r +:+ s) = substring 0 n s.
Proof.
  induction r as [|a r IH]; [reflexivity|].
  rewrite app_cons. simpl. apply IH.
Qed.

Lemma slice_to_app r s : Py.slice_to (r +:+ s) (Py.len r) = r.
Proof.
  unfold Py.slice_to, Py.slice, Py.clip. rewrite len_app.
  pose proof (len_nonneg r). pose proof (len_nonneg s).
  destruct (Z.ltb_spec 0 0); [lia|].
  destruct (Z.ltb_spec (Py.len r) 0); [lia|].
  replace (Z.min 0 (Py.len r + Py.len s)) with 0 by lia.
  replace (Z.min (Py.len r) (Py.len r + Py.len s)) with (Py.len r) by lia.
  rewrite Z.sub_0_r. unfold Py.len. rewrite Nat2Z.id.
  change (Z.to_nat 0) with 0%nat.
  apply substring_0_app.
Qed.

Lemma slice_from_app r s : Py.slice_from (r +:+ s) (Py.len r) = s.
Proof.
  unfold Py.slice_from, Py.slice, Py.clip. rewrite len_app.
  pose proof (len_nonneg r). pose proof (len_nonneg s).
  destruct (Z.ltb_spec (Py.len r) 0); [lia|].
  destruct (Z.ltb_spec (Py.len r + Py.len s) 0); [lia|].
  replace (Z.min (Py.len r) (Py.len r + Py.len s)) with (Py.len r) by lia.
  replace (Z.min (Py.len r + Py.len s) (Py.len r + Py.len s) - Py.len r)
    with (Py.len s) by lia.
  unfold Py.len. rewrite !Nat2Z.id.
  rewrite substring_skip_app. apply substring_all.
Qed.

Lemma slice_to_0 s : Py.slice_to s 0 = "".
Proof.
  unfold Py.slice_to, Py.slice, Py.clip.
  pose proof (len_nonneg s).
  destruct (Z.ltb_spec 0 0); [lia|].
  replace (Z.min 0 (Py.len s)) with 0 by lia.
  apply substring_0_0.
Qed.

(** [p[i:i+1]] at a position inside the string is the character there. *)
Lemma slice_char r a s :
  Py.slice (r +:+ String a s) (Py.len r) (Py.len r + 1) = String a "".
Proof.
  unfold Py.slice, Py.clip. rewrite len_app, len_cons.
  pose proof (len_nonneg r). pose proof (len_nonneg s).
  destruct (Z.ltb_spec (Py.len r) 0); [lia|].
  destruct (Z.ltb_spec (Py.len r + 1) 0); [lia|].
  replace (Z.min (Py.len r) (Py.len r + (Py.len s + 1))) with (Py.len r) by lia.
  replace (Z.min (Py.len r + 1) (Py.len r + (Py.len s + 1)) - Py.len r)
    with 1 by lia.
  unfold Py.len. rewrite Nat2Z.id. rewrite substring_skip_app.
  change (Z.to_nat 1) with 1%nat. simpl. now rewrite substring_0_0.
Qed.

End StringFacts.

(** * Facts about [os.path] *)

Section PathFacts.

Implicit Types (c a : ascii) (s p q r e : string).

Lemma slice_from_0 s : Py.slice_from s 0 = s.
Proof. apply (slice_from_app "" s). Qed.

Lemma slice_from_cons_succ a s j :
  0 <= j -> Py.slice_from (String a s) (j + 1) = Py.slice_from s j.
Proof.
  intros Hj. unfold Py.slice_from, Py.slice, Py.clip. rewrite len_cons.
  pose proof (len_nonneg s).
  destruct (Z.ltb_spec (j + 1) 0); [lia|].
  destruct (Z.ltb_spec (Py.len s + 1) 0); [lia|].
  destruct (Z.ltb_spec j 0); [lia|].
  destruct (Z.ltb_spec (Py.len s) 0); [lia|].
  replace (Z.to_nat (Z.min (j + 1) (Py.len s + 1)))
    with (S (Z.to_nat (Z.min j (Py.len s)))) by lia.
  replace (Z.min (Py.len s + 1) (Py.len s + 1) - Z.min (j + 1) (Py.len s + 1))
    with (Z.min (Py.len s) (Py.len s) - Z.min j (Py.len s)) by lia.
  reflexivity.
Qed.

(** [basename] drops everything up to the last slash. *)
Lemma basename_cons a s :
  posixpath.basename (String a s)
  = if (0 <=? Py.rfind "/" s) || Ascii.eqb a "/"
    then posixpath.basename s else String a s.
Proof.
  unfold posixpath.basename. rewrite rfind_cons.
  pose proof (rfind_bounds "/" s) as [Hlo _].
  destruct (Z.leb_spec 0 (Py.rfind "/" s)) as [Hge|Hlt]; simpl.
  - now apply slice_from_cons_succ; lia.
  - replace (Py.rfind "/" s) with (-1) by lia.
    destruct (Ascii.eqb a "/"); simpl.
    + apply (slice_from_cons_succ a s 0). lia.
    + apply slice_from_0.
Qed.

Lemma basename_no_sep p : Py.rfind "/" (posixpath.basename p) = -1.
Proof.
  induction p as [|a p IH]; [reflexivity|].
  rewrite basename_cons.
  destruct (Z.leb_spec 0 (Py.rfind "/" p)) as [Hge|Hlt]; simpl; [exact IH|].
  destruct (Ascii.eqb a "/") eqn:Ha; [exact IH|].
  rewrite rfind_cons, Ha.
  destruct (Z.leb_spec 0 (Py.rfind "/" p)); [lia | reflexivity].
Qed.

(** The loop stops at the first character that is not the separator. *)
Lemma skip_leading_dots_found c p r q :
  (exists x, x ∈ list_ascii_of_string r /\ x <> c) ->
  posixpath.skip_leading_dots (p +:+ r +:+ q) c (String.length r) (Py.len p)
  = true.
Proof.
  revert p. induction r as [|x r IH]; intros p [y [Hin Hy]].
  - simpl in Hin. now apply elem_of_nil in Hin.
  - rewrite app_cons. simpl posixpath.skip_leading_dots.
    rewrite slice_char.
    destruct (Ascii.eqb_spec x c) as [->|Hne].
    + rewrite String.eqb_refl. simpl negb. cbv iota.
      replace (p +:+ String c (r +:+ q))
        with ((p +:+ String c "") +:+ r +:+ q).
      2:{ clear. induction p as [|b p IHp]; [reflexivity|].
          rewrite !app_cons. now rewrite IHp. }
      replace (Py.len p + 1) with (Py.len (p +:+ String c "")).
      2:{ rewrite len_app, len_cons. change (Py.len "") with 0. lia. }
      apply IH. exists y. split; [|exact Hy].
      simpl in Hin. apply elem_of_cons in Hin as [->|Hin]; [congruence|exact Hin].
    + replace (String.eqb (String x "") (String c "")) with false; [reflexivity|].
      symmetry. apply String.eqb_neq. congruence.
Qed.

(** A name with something other than dots before its last dot is split
    at that dot. *)
Lemma splitext_last_dot r e :
  Py.rfind "/" (r +:+ String "." e) = -1 ->
  "."%char ∉ list_ascii_of_string e ->
  (exists x, x ∈ list_ascii_of_string r /\ x <> "."%char) ->
  posixpath.splitext (r +:+ String "." e) = (r, String "." e).
Proof.
  intros Hsep He Hr.
  unfold posixpath.splitext, posixpath._splitext.
  rewrite Hsep, (rfind_app_last _ _ _ He).
  pose proof (len_nonneg r).
  destruct (Z.ltb_spec (-1) (Py.len r)); [|lia].
  replace (Z.to_nat (Py.len r - (-1 + 1))) with (String.length r)
    by (unfold Py.len; lia).
  change (-1 + 1) with (Py.len "").
  rewrite <- (app_empty (r +:+ String "." e)) at 1.
  rewrite (skip_leading_dots_found "." "" r (String "." e) Hr).
  simpl andb. cbv iota.
  now rewrite slice_to_app, slice_from_app.
Qed.

(** A name whose only dot is its first character has no extension. *)
Lemma splitext_dotfile s :
  Py.rfind "/" (String "." s) = -1 ->
  "."%char ∉ list_ascii_of_string s ->
  posixpath.splitext (String "." s) = (String "." s, "").
Proof.
  intros Hsep Hs.
  unfold posixpath.splitext, posixpath._splitext.
  rewrite Hsep, rfind_cons, (rfind_absent _ _ Hs).
  simpl. now rewrite slice_to_0.
Qed.

End PathFacts.

(** * The header hook *)

Section HeaderPolicy.

Implicit Types (self : handler) (added : list line) (p q : string).

Lemma finalized_inj self added1 added2 :
  finalized self added1 = finalized self added2 -> added1 = added2.
Proof.
  unfold finalized. intros H. injection H as H.
  apply app_inv_head in H. apply app_inv_head in H.
  now apply app_inv_tail in H.
Qed.

(** The three branches of [end_headers]. *)
Lemma end_headers_cases self :
  end_headers self
  = finalized self
      (if bool_decide (request_basename self ∈ NO_CACHE_FILES)
       then no_cache_headers
       else if bool_decide (request_ext self ∈ REVALIDATE_EXTENSIONS)
            then revalidate_headers
            else []).
Proof.
  unfold end_headers, request_ext.
  destruct (posixpath.splitext (request_basename self)) as [root ext].
  simpl snd.
  destruct (bool_decide (request_basename self ∈ NO_CACHE_FILES));
    [|destruct (bool_decide (ext ∈ REVALIDATE_EXTENSIONS))];
    unfold then_, pass, send_header, super_end_headers, finalized,
      no_cache_headers, revalidate_headers; simpl;
    f_equal; f_equal; rewrite <- ?app_assoc; reflexivity.
Qed.

(** The request path is all that the hook looks at. *)
Lemma request_basename_path self1 self2 :
  path self1 = path self2 -> request_basename self1 = request_basename self2.
Proof. unfold request_basename. now intros ->. Qed.

Lemma request_ext_path self1 self2 :
  path self1 = path self2 -> request_ext self1 = request_ext self2.
Proof.
  intros H. unfold request_ext. now rewrite (request_basename_path _ _ H).
Qed.

Lemma end_headers_same_path self1 self2 :
  path self1 = path self2 ->
  exists added,
    end_headers self1 = finalized self1 added
    /\ end_headers self2 = finalized self2 added.
Proof.
  intros H. eexists. split; [apply end_headers_cases|].
  rewrite end_headers_cases.
  now rewrite (request_basename_path _ _ H), (request_ext_path _ _ H).
Qed.

Lemma request_basename_query self1 self2 q :
  path self2 = path self1 +:+ "?" +:+ q ->
  request_basename self2 = request_basename self1.
Proof.
  intros H. unfold request_basename.
  now rewrite H, app_cons, app_empty, split_fst_app_sep.
Qed.

Lemma request_basename_fragment self1 self2 q :
  path self2 = path self1 +:+ "#" +:+ q ->
  request_basename self2 = request_basename self1.
Proof.
  intros H. unfold request_basename.
  now rewrite H, app_cons, app_empty, split_split_app_sep.
Qed.

Lemma dot_name_not_no_cache s : String "." s ∉ NO_CACHE_FILES.
Proof.
  unfold NO_CACHE_FILES. rewrite elem_of_union, !elem_of_singleton.
  intros [H|H]; discriminate H.
Qed.

Lemma empty_not_special :
  ("" ∉ NO_CACHE_FILES) /\ ("" ∉ REVALIDATE_EXTENSIONS).
Proof.
  unfold NO_CACHE_FILES, REVALIDATE_EXTENSIONS.
  rewrite !elem_of_union, !elem_of_singleton.
  split; intros H; repeat destruct H as [H|H]; discriminate H.
Qed.

Lemma revalidate_not_in_no_cache :
  HeaderLine "Cache-Control" "no-cache" ∉ no_cache_headers.
Proof.
  unfold no_cache_headers. rewrite !elem_of_cons, elem_of_nil.
  intros [H|[H|[H|[]]]]; discriminate H.
Qed.

(** C1.  When the basename of the request path (query string and fragment
    cut off) is one of [NO_CACHE_FILES], the hook adds exactly the three
    headers [Cache-Control: no-cache, no-store, must-revalidate],
    [Pragma: no-cache] and [Expires: 0], whatever the extension; the lines
    it adds are not the single revalidate header, nor is that header among
    them. *)
Theorem no_cache_takes_precedence self :
  request_basename self ∈ NO_CACHE_FILES ->
  end_headers self = finalized self no_cache_headers
  /\ end_headers self <> finalized self revalidate_headers
  /\ (forall added,
        end_headers self = finalized self added ->
        HeaderLine "Cache-Control" "no-cache" ∉ added).
Proof.
  intros Hin.
  assert (Heq : end_headers self = finalized self no_cache_headers).
  { rewrite end_headers_cases. now rewrite (bool_decide_eq_true_2 _ Hin). }
  split; [exact Heq|]. split.
  - rewrite Heq. intros H. apply finalized_inj in H. discriminate H.
  - intros added H. rewrite Heq in H. apply finalized_inj in H. subst added.
    apply revalidate_not_in_no_cache.
Qed.

(** [/sw.js?v=2]: the basename is [sw.js], whose extension [.js] is also
    in [REVALIDATE_EXTENSIONS]. *)
Lemma no_cache_takes_precedence_witness :
  request_ext (request "/sw.js?v=2") ∈ REVALIDATE_EXTENSIONS
  /\ end_headers (request "/sw.js?v=2")
     = finalized (request "/sw.js?v=2") no_cache_headers.
Proof.
  split.
  - apply (bool_decide_eq_true_1 _). vm_compute. reflexivity.
  - apply (no_cache_takes_precedence (request "/sw.js?v=2")).
    apply (bool_decide_eq_true_1 _). vm_compute. reflexivity.
Defined.

(** C2.  When the basename is not in [NO_CACHE_FILES] and its extension
    is in [REVALIDATE_EXTENSIONS], the hook adds exactly one header,
    [Cache-Control: no-cache]. *)
Theorem revalidate_extension_one_header self :
  request_basename self ∉ NO_CACHE_FILES ->
  request_ext self ∈ REVALIDATE_EXTENSIONS ->
  end_headers self = finalized self [HeaderLine "Cache-Control" "no-cache"].
Proof.
  intros Hb He. rewrite end_headers_cases.
  now rewrite (bool_decide_eq_false_2 _ Hb), (bool_decide_eq_true_2 _ He).
Qed.

Lemma revalidate_extension_one_header_witness :
  end_headers (request "/styles.css?x=1")
  = finalized (request "/styles.css?x=1")
      [HeaderLine "Cache-Control" "no-cache"].
Proof.
  apply (revalidate_extension_one_header (request "/styles.css?x=1")).
  - apply (bool_decide_eq_false_1 _). vm_compute. reflexivity.
  - apply (bool_decide_eq_true_1 _). vm_compute. reflexivity.
Defined.

(** C3.  When the basename is not in [NO_CACHE_FILES] and its extension
    is not in [REVALIDATE_EXTENSIONS], the hook adds no header.  An empty
    basename, as for the root path [/], is such a case. *)
Theorem neither_set_no_headers self :
  (request_basename self ∉ NO_CACHE_FILES ->
   request_ext self ∉ REVALIDATE_EXTENSIONS ->
   end_headers self = finalized self [])
  /\ (request_basename self = "" -> end_headers self = finalized self [])
  /\ (path self = "/" -> request_basename self = "").
Proof.
  assert (H0 : request_basename self ∉ NO_CACHE_FILES ->
               request_ext self ∉ REVALIDATE_EXTENSIONS ->
               end_headers self = finalized self []).
  { intros Hb He. rewrite end_headers_cases.
    now rewrite (bool_decide_eq_false_2 _ Hb), (bool_decide_eq_false_2 _ He). }
  split; [exact H0|]. split.
  - intros Hempty. apply H0.
    + rewrite Hempty. apply empty_not_special.
    + unfold request_ext. rewrite Hempty. apply empty_not_special.
  - unfold request_basename. now intros ->.
Qed.

Lemma neither_set_no_headers_witness :
  end_headers (request "/logo.png") = finalized (request "/logo.png") []
  /\ end_headers (request "/") = finalized (request "/") [].
Proof.
  split.
  - apply (proj1 (neither_set_no_headers (request "/logo.png"))).
    + apply (bool_decide_eq_false_1 _). vm_compute. reflexivity.
    + apply (bool_decide_eq_false_1 _). vm_compute. reflexivity.
  - destruct (neither_set_no_headers (request "/")) as (_ & Hempty & Hroot).
    apply Hempty, Hroot. reflexivity.
Defined.

(** C4.  A query string or a fragment appended to the request path does
    not change what the hook adds: a request for [p?q] or [p#q] gets the
    lines a request for [p] gets. *)
Theorem query_and_fragment_ignored self1 self2 q :
  path self2 = path self1 +:+ "?" +:+ q
  \/ path self2 = path self1 +:+ "#" +:+ q ->
  exists added,
    end_headers self1 = finalized self1 added
    /\ end_headers self2 = finalized self2 added.
Proof.
  intros H.
  assert (Hb : request_basename self2 = request_basename self1).
  { destruct H as [H|H];
      [apply (request_basename_query _ _ q H)
      |apply (request_basename_fragment _ _ q H)]. }
  eexists. split; [apply end_headers_cases|].
  rewrite end_headers_cases. unfold request_ext. now rewrite Hb.
Qed.

Lemma query_and_fragment_ignored_witness :
  (exists added,
     end_headers (request "/sw.js") = finalized (request "/sw.js") added
     /\ end_headers (request "/sw.js?v=2")
        = finalized (request "/sw.js?v=2") added)
  /\ (exists added,
     end_headers (request "/sw.js") = finalized (request "/sw.js") added
     /\ end_headers (request "/sw.js#frag")
        = finalized (request "/sw.js#frag") added).
Proof.
  split.
  - apply (query_and_fragment_ignored (request "/sw.js")
             (request "/sw.js?v=2") "v=2").
    left. reflexivity.
  - apply (query_and_fragment_ignored (request "/sw.js")
             (request "/sw.js#frag") "frag").
    right. reflexivity.
Defined.

Example query_and_fragment_examples :
  map (fun p => wfile (end_headers (request p)))
    ["/sw.js?v=2"; "/sw.js#frag"; "/sw.js#frag?x"; "/a?b#c/app.css"; "/x.png?/sw.js"]
  = [ no_cache_headers ++ [EndOfHeaders]; no_cache_headers ++ [EndOfHeaders];
      no_cache_headers ++ [EndOfHeaders]; [EndOfHeaders]; [EndOfHeaders] ].
Proof. vm_compute. reflexivity. Qed.

End HeaderPolicy.

(** * Extensions, determinism and response status *)

Section Extensions.

Implicit Types (self : handler) (added : list line) (p r e s : string).

Lemma request_basename_no_sep self : Py.rfind "/" (request_basename self) = -1.
Proof. unfold request_basename. apply basename_no_sep. Qed.

(** C5, as amended.  When the basename has something other than dots
    before its last dot (as every name with several dots that does not
    consist of leading dots only, such as [app.min.js]), the extension used
    is the text from the last dot on, and it alone decides between the
    revalidate header and no header for a name outside
    [NO_CACHE_FILES]. *)
Theorem last_dot_extension self r e :
  request_basename self = r +:+ "." +:+ e ->
  "."%char ∉ list_ascii_of_string e ->
  (exists x, x ∈ list_ascii_of_string r /\ x <> "."%char) ->
  request_ext self = "." +:+ e
  /\ (request_basename self ∉ NO_CACHE_FILES ->
      "." +:+ e ∈ REVALIDATE_EXTENSIONS ->
      end_headers self = finalized self revalidate_headers).
Proof.
  intros Hb He Hr.
  assert (Hext : request_ext self = "." +:+ e).
  { unfold request_ext.
    pose proof (request_basename_no_sep self) as Hsep.
    rewrite Hb, app_cons, app_empty in *.
    now rewrite (splitext_last_dot r e Hsep He Hr). }
  split; [exact Hext|].
  intros Hn Hin. rewrite end_headers_cases.
  rewrite (bool_decide_eq_false_2 _ Hn), Hext.
  now rewrite (bool_decide_eq_true_2 _ Hin).
Qed.

Lemma last_dot_extension_witness :
  request_ext (request "/app.min.js") = ".js"
  /\ end_headers (request "/app.min.js")
     = finalized (request "/app.min.js") revalidate_headers.
Proof.
  assert (H : request_ext (request "/app.min.js") = "." +:+ "js"
              /\ (request_basename (request "/app.min.js") ∉ NO_CACHE_FILES ->
                  "." +:+ "js" ∈ REVALIDATE_EXTENSIONS ->
                  end_headers (request "/app.min.js")
                  = finalized (request "/app.min.js") revalidate_headers)).
  { apply (last_dot_extension (request "/app.min.js") "app.min" "js").
    - reflexivity.
    - intros H. simpl in H.
      repeat (apply elem_of_cons in H as [H|H]; [discriminate H|]).
      now apply elem_of_nil in H.
    - exists "a"%char. split; [simpl; apply elem_of_cons; now left | discriminate]. }
  destruct H as [Hext Hhdr]. split; [exact Hext|].
  apply Hhdr.
  - apply (bool_decide_eq_false_1 _). vm_compute. reflexivity.
  - apply (bool_decide_eq_true_1 _). vm_compute. reflexivity.
Defined.

(** C5 fails as it is written: [..js] has two dots and the text from its
    last dot is [.js], yet its extension is empty and the hook adds no
    header. *)
Lemma last_dot_extension_counterexample :
  request_basename (request "/..js") = "." +:+ "." +:+ "js"
  /\ request_ext (request "/..js") = ""
  /\ request_ext (request "/..js") <> "." +:+ "js"
  /\ end_headers (request "/..js") = finalized (request "/..js") [].
Proof.
  split; [reflexivity|]. split; [reflexivity|]. split.
  - intros H. vm_compute in H. discriminate H.
  - vm_compute. reflexivity.
Qed.

(** C10.  A basename whose only dot is its first character has an empty
    extension, so the hook adds no header for it; [/.js] is such a
    request, although [.js] is in [REVALIDATE_EXTENSIONS]. *)
Theorem dotfile_gets_no_headers self s :
  request_basename self = String "." s ->
  "."%char ∉ list_ascii_of_string s ->
  request_ext self = ""
  /\ end_headers self = finalized self [].
Proof.
  intros Hb Hs.
  assert (Hext : request_ext self = "").
  { unfold request_ext.
    pose proof (request_basename_no_sep self) as Hsep.
    rewrite Hb in *. now rewrite (splitext_dotfile s Hsep Hs). }
  split; [exact Hext|].
  rewrite end_headers_cases, Hext, Hb.
  rewrite (bool_decide_eq_false_2 _ (dot_name_not_no_cache s)).
  now rewrite (bool_decide_eq_false_2 _ (proj2 empty_not_special)).
Qed.

Lemma dotfile_gets_no_headers_witness :
  ".js" ∈ REVALIDATE_EXTENSIONS
  /\ request_ext (request "/.js") = ""
  /\ end_headers (request "/.js") = finalized (request "/.js") [].
Proof.
  split.
  - apply (bool_decide_eq_true_1 _). vm_compute. reflexivity.
  - apply (dotfile_gets_no_headers (request "/.js") "js").
    + reflexivity.
    + intros H. simpl in H.
      repeat (apply elem_of_cons in H as [H|H]; [discriminate H|]).
      now apply elem_of_nil in H.
Defined.

Example dotfile_examples :
  map (fun p => wfile (end_headers (request p)))
    ["/.js"; "/.hidden"; "/.css"; "/static/.html?x"; "/a.js/.js"]
  = [ [EndOfHeaders]; [EndOfHeaders]; [EndOfHeaders]; [EndOfHeaders];
      [EndOfHeaders] ].
Proof. vm_compute. reflexivity. Qed.

Lemma path_finalized self added : path (finalized self added) = path self.
Proof. reflexivity. Qed.

Lemma end_headers_path_only p :
  exists added,
    forall self, path self = p -> end_headers self = finalized self added.
Proof.
  destruct (end_headers_same_path (request p) (request p) eq_refl)
    as [added [H _]].
  exists added. intros self Hp.
  destruct (end_headers_same_path (request p) self) as [added' [H1 H2]];
    [now rewrite Hp|].
  rewrite H in H1. apply finalized_inj in H1. now subst added'.
Qed.

(** C6.  The lines the hook adds are a function of the request path
    alone: every handler serving [p] gets the same lines, whatever else it
    holds; nothing but the written lines changes; and running the hook
    again on the same handler adds the same lines again. *)
Theorem header_policy_deterministic p :
  exists added,
    forall self, path self = p ->
      end_headers self = finalized self added
      /\ end_headers (end_headers self) = finalized (end_headers self) added.
Proof.
  destruct (end_headers_path_only p) as [added H].
  exists added. intros self Hp.
  pose proof (H self Hp) as Hself.
  split; [exact Hself|].
  apply H. now rewrite Hself, path_finalized.
Qed.

Lemma header_policy_deterministic_witness :
  exists added,
    end_headers (request "/app.js") = finalized (request "/app.js") added
    /\ end_headers (responding "/app.js" 200 "OK")
       = finalized (responding "/app.js" 200 "OK") added
    /\ end_headers (end_headers (request "/app.js"))
       = finalized (end_headers (request "/app.js")) added.
Proof.
  destruct (header_policy_deterministic "/app.js") as [added H].
  exists added.
  destruct (H (request "/app.js") eq_refl) as [H1 H2].
  destruct (H (responding "/app.js" 200 "OK") eq_refl) as [H3 _].
  split; [exact H1|]. split; [exact H3 | exact H2].
Defined.

End Extensions.

(** * The log filter *)

Section Logging.

Implicit Types (self : handler) (code : Z) (size : string).





Lemma log_message_status format first status rest self :
  log_message format (first :: Py.Str status :: rest) self
  = if Py.startswith status "4" || Py.startswith status "5"
    then super_log_message format (first :: Py.Str status :: rest) self
    else self.
Proof.
  unfold log_message.
  replace (1 <? Z.of_nat (length (first :: Py.Str status :: rest))) with true.
  - reflexivity.
  - symmetry. apply Z.ltb_lt. simpl length. lia.
Qed.



End Logging.

(** * Start-up *)

Section Startup.

Implicit Types (a : args) (env : os_env).

(** C7.  When [sw.js] is not a file in the serve directory, [main] prints
    an error that names [sw.js] and the directory, and exits with status
    1 without creating the server socket; when it is, [main] goes on to
    change directory and create the server, and does not exit. *)
Theorem startup_requires_marker a env :
  (isfile env (posixpath.join (serve_dir a env) "sw.js") = false ->
   main a env
   = ([ Print ("Error: sw.js not found in " +:+ serve_dir a env);
        Print "Make sure you're serving the GridDown directory.";
        SysExit 1 ],
      Exited 1)
   /\ 1 <> 0
   /\ (forall host port, HTTPServer host port ∉ (main a env).1))
  /\ (isfile env (posixpath.join (serve_dir a env) "sw.js") = true ->
      (exists cls rest,
         main a env
         = (Chdir (serve_dir a env) :: HTTPServer "0.0.0.0" (port a) :: rest,
            Serving cls))
      /\ (forall status, SysExit status ∉ (main a env).1)).
Proof.
  unfold main. split; intros ->; simpl negb; cbv iota.
  - split; [reflexivity|]. split; [lia|].
    intros host port H. simpl in H.
    repeat (apply elem_of_cons in H as [H|H]; [discriminate H|]).
    now apply elem_of_nil in H.
  - split; [eexists _, _; reflexivity|].
    intros status H. simpl in H.
    repeat (apply elem_of_cons in H as [H|H]; [discriminate H|]).
    now apply elem_of_nil in H.
Qed.

Lemma startup_requires_marker_witness :
  main (mkArgs 8080 None false) sample_env
  = ([ Print "Error: sw.js not found in /opt/tools";
       Print "Make sure you're serving the GridDown directory.";
       SysExit 1 ],
     Exited 1)
  /\ (exists cls rest,
        main (mkArgs 8080 (Some "/srv/GridDown") false) sample_env
        = (Chdir "/srv/GridDown" :: HTTPServer "0.0.0.0" 8080 :: rest,
           Serving cls)).
Proof.
  split.
  - apply (proj1 (startup_requires_marker (mkArgs 8080 None false) sample_env)).
    vm_compute. reflexivity.
  - apply (proj2 (startup_requires_marker
                    (mkArgs 8080 (Some "/srv/GridDown") false) sample_env)).
    vm_compute. reflexivity.
Defined.

Example main_trace :
  (main (mkArgs 8080 (Some "/srv/GridDown") false) sample_env).1
  = [ Chdir "/srv/GridDown";
      HTTPServer "0.0.0.0" 8080;
      Print "GridDown server v1.0";
      Print "Serving: /srv/GridDown";
      Print "URL:     http://localhost:8080";
      Print "";
      Print "Cache-Control: no-cache, no-store applied to: manifest.json, sw.js";
      Print "Cache-Control: no-cache (revalidate) applied to: .css, .html, .js";
      Print "Press Ctrl+C to stop.";
      ServeForever ].
Proof. vm_compute. reflexivity. Qed.

End Startup.

(** * Further facts about paths *)

Section PathShapes.

Implicit Types (c a : ascii) (s p q r e d b : string).

Lemma app_assoc_str p q r : (p +:+ q) +:+ r = p +:+ (q +:+ r).
Proof.
  induction p as [|a p IH]; [reflexivity|].
  rewrite !app_cons. now rewrite IH.
Qed.

Lemma app_empty_r p : p +:+ "" = p.
Proof.
  induction p as [|a p IH]; [reflexivity|].
  rewrite app_cons. now rewrite IH.
Qed.

Lemma chars_app p q :
  list_ascii_of_string (p +:+ q)
  = list_ascii_of_string p ++ list_ascii_of_string q.
Proof.
  induction p as [|a p IH]; [reflexivity|].
  rewrite app_cons. simpl. now rewrite IH.
Qed.

Lemma split_fst_absent c s :
  c ∉ list_ascii_of_string s -> (Py.split c s).1 = s.
Proof.
  induction s as [|a s IH]; [reflexivity|].
  intros Hn. simpl in Hn. apply not_elem_of_cons in Hn as [Hne Hn].
  rewrite split_fst_cons, (IH Hn).
  destruct (Ascii.eqb_spec a c); congruence.
Qed.

Lemma rfind_negative_absent c s :
  Py.rfind c s < 0 -> c ∉ list_ascii_of_string s.
Proof.
  induction s as [|a s IH]; intros H.
  - simpl. apply not_elem_of_nil.
  - rewrite rfind_cons in H.
    destruct (Z.leb_spec 0 (Py.rfind c s)) as [Hge|Hlt]; [lia|].
    destruct (Ascii.eqb_spec a c) as [->|Hne]; [lia|].
    simpl. apply not_elem_of_cons. split; [congruence | now apply IH].
Qed.

(** A found index splits the string at the last occurrence. *)
Lemma rfind_decompose c s :
  0 <= Py.rfind c s ->
  exists r e,
    s = r +:+ String c e
    /\ (c ∉ list_ascii_of_string e)
    /\ Py.rfind c s = Py.len r.
Proof.
  induction s as [|a s IH]; intros H.
  - change (Py.rfind c "") with (-1) in H. lia.
  - rewrite rfind_cons in H |- *.
    destruct (Z.leb_spec 0 (Py.rfind c s)) as [Hge|Hlt].
    + destruct (IH Hge) as (r & e & Hs & He & Hi).
      exists (String a r), e. rewrite app_cons, <- Hs, len_cons, Hi.
      now repeat split.
    + destruct (Ascii.eqb_spec a c) as [->|Hne]; [|lia].
      exists "", s. repeat split.
      now apply rfind_negative_absent.
Qed.

Lemma basename_app_sep d b :
  "/"%char ∉ list_ascii_of_string b ->
  posixpath.basename (d +:+ String "/" b) = b.
Proof.
  intros Hb. unfold posixpath.basename.
  rewrite (rfind_app_last _ _ _ Hb).
  replace (d +:+ String "/" b) with ((d +:+ "/") +:+ b)
    by now rewrite app_assoc_str.
  replace (Py.len d + 1) with (Py.len (d +:+ "/"))
    by (rewrite len_app, len_cons; change (Py.len "") with 0; lia).
  apply slice_from_app.
Qed.

Lemma basename_absent b :
  "/"%char ∉ list_ascii_of_string b -> posixpath.basename b = b.
Proof.
  intros Hb. unfold posixpath.basename.
  rewrite (rfind_absent _ _ Hb). apply slice_from_0.
Qed.

(** [basename] returns what follows the last slash, or the whole path. *)
Lemma basename_suffix p :
  p = posixpath.basename p
  \/ exists d, p = d +:+ String "/" (posixpath.basename p).
Proof.
  destruct (Z.leb_spec 0 (Py.rfind "/" p)) as [Hge|Hlt].
  - right. destruct (rfind_decompose _ _ Hge) as (r & e & Hp & He & _).
    exists r. rewrite Hp at 2. now rewrite (basename_app_sep r e He).
  - left. symmetry. apply basename_absent.
    now apply rfind_negative_absent.
Qed.

(** The path with its query string and fragment cut off. *)
Lemma split_cut_off p :
  exists tail,
    p = (Py.split "#" (Py.split "?" p).1).1 +:+ tail /\ cut_off tail.
Proof.
  destruct (split_fst_prefix "?" p) as [Hq|[rq Hq]];
    destruct (split_fst_prefix "#" (Py.split "?" p).1) as [Hf|[rf Hf]].
  - exists "". split; [|now left]. now rewrite app_empty_r, <- Hf.
  - exists (String "#" rf). split; [|right; exists rf; now right].
    now rewrite <- Hf.
  - exists (String "?" rq). split; [|right; exists rq; now left].
    now rewrite <- Hf.
  - exists (String "#" (rf +:+ String "?" rq)).
    split; [|right; eexists; now right].
    rewrite Hq at 1. rewrite Hf at 1.
    now rewrite app_assoc_str, app_cons.
Qed.

(** Cutting gives back the front when the front has no mark in it. *)
Lemma split_front p tail :
  "?"%char ∉ list_ascii_of_string p ->
  "#"%char ∉ list_ascii_of_string p ->
  cut_off tail ->
  (Py.split "#" (Py.split "?" (p +:+ tail)).1).1 = p.
Proof.
  intros Hq Hf [->|[rest [->| ->]]].
  - rewrite app_empty_r.
    now rewrite (split_fst_absent _ _ Hq), (split_fst_absent _ _ Hf).
  - rewrite split_fst_app_sep.
    now rewrite (split_fst_absent _ _ Hq), (split_fst_absent _ _ Hf).
  - rewrite split_split_app_sep.
    now rewrite (split_fst_absent _ _ Hq), (split_fst_absent _ _ Hf).
Qed.

End PathShapes.

(** * The shape of an extension *)

Section ExtensionShape.

Implicit Types (c a : ascii) (s p q r e b : string).

Lemma all_char_other c r :
  Py.all_char c r = false <->
  exists x, x ∈ list_ascii_of_string r /\ x <> c.
Proof.
  induction r as [|a r IH]; simpl.
  - split; [discriminate|]. intros (x & Hx & _). now apply elem_of_nil in Hx.
  - destruct (Ascii.eqb_spec a c) as [->|Hne]; simpl.
    + rewrite IH. split; intros (x & Hx & Hc); exists x; split; auto.
      * now apply elem_of_cons; right.
      * apply elem_of_cons in Hx as [->|Hx]; [congruence | exact Hx].
    + split; [|reflexivity]. intros _. exists a. split; [|exact Hne].
      apply elem_of_cons. now left.
Qed.

(** Over a run of separators the loop reaches its end. *)
Lemma skip_leading_dots_all c p r q :
  Py.all_char c r = true ->
  posixpath.skip_leading_dots (p +:+ r +:+ q) c (String.length r) (Py.len p)
  = false.
Proof.
  revert p. induction r as [|x r IH]; intros p Hall; [reflexivity|].
  simpl in Hall. apply andb_true_iff in Hall as [Hx Hall].
  apply Ascii.eqb_eq in Hx. subst x.
  rewrite app_cons. simpl posixpath.skip_leading_dots.
  rewrite slice_char, String.eqb_refl. simpl negb. cbv iota.
  replace (p +:+ String c (r +:+ q)) with ((p +:+ String c "") +:+ r +:+ q)
    by now rewrite app_assoc_str.
  replace (Py.len p + 1) with (Py.len (p +:+ String c ""))
    by (rewrite len_app, len_cons; change (Py.len "") with 0; lia).
  now apply IH.
Qed.

(** A name made of leading dots up to its last dot has no extension. *)
Lemma splitext_leading_dots r e :
  Py.rfind "/" (r +:+ String "." e) = -1 ->
  "."%char ∉ list_ascii_of_string e ->
  Py.all_char "." r = true ->
  posixpath.splitext (r +:+ String "." e) = (r +:+ String "." e, "").
Proof.
  intros Hsep He Hr.
  unfold posixpath.splitext, posixpath._splitext.
  rewrite Hsep, (rfind_app_last _ _ _ He).
  replace (Z.to_nat (Py.len r - (-1 + 1))) with (String.length r)
    by (unfold Py.len; lia).
  change (-1 + 1) with (Py.len "").
  rewrite <- (app_empty (r +:+ String "." e)) at 1.
  rewrite (skip_leading_dots_all "." "" r (String "." e) Hr).
  rewrite andb_false_r. now rewrite slice_to_0.
Qed.

(** What [splitext] returns for a name without a slash. *)
Lemma splitext_shape b :
  Py.rfind "/" b = -1 ->
  posixpath.splitext b = (b, "")
  \/ exists r e,
       b = r +:+ String "." e
       /\ ("."%char ∉ list_ascii_of_string e)
       /\ (exists x, x ∈ list_ascii_of_string r /\ x <> "."%char)
       /\ posixpath.splitext b = (r, String "." e).
Proof.
  intros Hsep.
  destruct (Z.leb_spec 0 (Py.rfind "." b)) as [Hge|Hlt].
  - destruct (rfind_decompose _ _ Hge) as (r & e & Hb & He & _).
    subst b. destruct (Py.all_char "." r) eqn:Hall.
    + left. now apply splitext_leading_dots.
    + right. exists r, e. apply all_char_other in Hall.
      repeat split; auto. now apply splitext_last_dot.
  - left. unfold posixpath.splitext, posixpath._splitext. rewrite Hsep.
    destruct (Z.ltb_spec (-1) (Py.rfind "." b)); [lia|].
    simpl andb. cbv iota. now rewrite slice_to_0.
Qed.

Lemma revalidate_extension_cases e :
  e ∈ REVALIDATE_EXTENSIONS <-> e = ".js" \/ e = ".css" \/ e = ".html".
Proof.
  unfold REVALIDATE_EXTENSIONS.
  rewrite !elem_of_union, !elem_of_singleton. tauto.
Qed.

Lemma no_cache_file_cases b :
  b ∈ NO_CACHE_FILES <-> b = "sw.js" \/ b = "manifest.json".
Proof.
  unfold NO_CACHE_FILES. now rewrite elem_of_union, !elem_of_singleton.
Qed.

End ExtensionShape.

(** * Which requests get which headers *)

Section Classification.

Implicit Types (self : handler) (added : list line) (d b name tail : string).

(** X1.  The three outcomes of the hook are told apart exactly by the two
    membership tests: the three no-cache lines are added if and only if the
    basename is in [NO_CACHE_FILES]; the single revalidate line if and only
    if it is not and the extension is in [REVALIDATE_EXTENSIONS]; and no
    line if and only if neither holds. *)
Theorem classification_exact self :
  (end_headers self = finalized self no_cache_headers
   <-> request_basename self ∈ NO_CACHE_FILES)
  /\ (end_headers self = finalized self revalidate_headers
      <-> (request_basename self ∉ NO_CACHE_FILES)
          /\ request_ext self ∈ REVALIDATE_EXTENSIONS)
  /\ (end_headers self = finalized self []
      <-> (request_basename self ∉ NO_CACHE_FILES)
          /\ (request_ext self ∉ REVALIDATE_EXTENSIONS)).
Proof.
  rewrite end_headers_cases.
  destruct (decide (request_basename self ∈ NO_CACHE_FILES)) as [Hb|Hb];
    [rewrite (bool_decide_eq_true_2 _ Hb)
    |rewrite (bool_decide_eq_false_2 _ Hb);
     destruct (decide (request_ext self ∈ REVALIDATE_EXTENSIONS)) as [He|He];
     [rewrite (bool_decide_eq_true_2 _ He)
     |rewrite (bool_decide_eq_false_2 _ He)]];
    (split; [|split]); split;
    try (intros H; apply finalized_inj in H; discriminate H);
    try (intros [? ?]; contradiction);
    try (intros _; reflexivity);
    try (intros _; split; assumption);
    try (intros ?; contradiction);
    auto.
Qed.

Lemma classification_exact_witness :
  (request_basename (request "/docs/readme.txt") ∉ NO_CACHE_FILES)
  /\ (request_ext (request "/docs/readme.txt") ∉ REVALIDATE_EXTENSIONS)
  /\ request_basename (request "sw.js") ∈ NO_CACHE_FILES.
Proof.
  split; [|split].
  - apply (proj1 (proj2 (proj2 (classification_exact
                                  (request "/docs/readme.txt"))))).
    vm_compute. reflexivity.
  - apply (proj1 (proj2 (proj2 (classification_exact
                                  (request "/docs/readme.txt"))))).
    vm_compute. reflexivity.
  - apply (proj1 (classification_exact (request "sw.js"))).
    vm_compute. reflexivity.
Defined.

(** The basename the hook examines is the last segment of the path before
    the query string or fragment. *)
Lemma request_basename_segment self d b tail :
  path self = (d +:+ "/" +:+ b) +:+ tail ->
  "?"%char ∉ list_ascii_of_string d ->
  "#"%char ∉ list_ascii_of_string d ->
  "/"%char ∉ list_ascii_of_string b ->
  "?"%char ∉ list_ascii_of_string b ->
  "#"%char ∉ list_ascii_of_string b ->
  cut_off tail ->
  request_basename self = b.
Proof.
  intros Hp Hdq Hdf Hbs Hbq Hbf Htail.
  unfold request_basename. rewrite Hp, split_front; [| | |exact Htail].
  - rewrite app_cons, app_empty. now apply basename_app_sep.
  - rewrite !chars_app. simpl. rewrite !not_elem_of_app, not_elem_of_cons.
    repeat split; auto; discriminate.
  - rewrite !chars_app. simpl. rewrite !not_elem_of_app, not_elem_of_cons.
    repeat split; auto; discriminate.
Qed.

Lemma no_cache_name_chars name c :
  name ∈ NO_CACHE_FILES ->
  c = "/"%char \/ c = "?"%char \/ c = "#"%char ->
  c ∉ list_ascii_of_string name.
Proof.
  intros Hn Hc. apply no_cache_file_cases in Hn.
  destruct Hn as [->| ->]; simpl; intros H;
    repeat (apply elem_of_cons in H as [->|H];
            [destruct Hc as [Hc|[Hc|Hc]]; discriminate Hc|]);
    now apply elem_of_nil in H.
Qed.

(** X3.  A file named [sw.js] or [manifest.json] gets the three no-cache
    headers in whatever directory it is requested, with or without a query
    string or fragment. *)
Theorem no_cache_in_any_directory self d name tail :
  path self = (d +:+ "/" +:+ name) +:+ tail ->
  name ∈ NO_CACHE_FILES ->
  "?"%char ∉ list_ascii_of_string d ->
  "#"%char ∉ list_ascii_of_string d ->
  cut_off tail ->
  end_headers self = finalized self no_cache_headers.
Proof.
  intros Hp Hn Hdq Hdf Htail.
  assert (Hb : request_basename self = name).
  { apply (request_basename_segment self d name tail); auto;
      apply no_cache_name_chars; auto. }
  rewrite end_headers_cases, Hb. now rewrite (bool_decide_eq_true_2 _ Hn).
Qed.

Lemma no_cache_in_any_directory_witness :
  end_headers (request "/static/pwa/manifest.json?v=3#top")
  = finalized (request "/static/pwa/manifest.json?v=3#top") no_cache_headers.
Proof.
  apply (no_cache_in_any_directory _ "/static/pwa" "manifest.json" "?v=3#top").
  - reflexivity.
  - apply (bool_decide_eq_true_1 _). vm_compute. reflexivity.
  - apply (bool_decide_eq_false_1 _). vm_compute. reflexivity.
  - apply (bool_decide_eq_false_1 _). vm_compute. reflexivity.
  - right. exists "v=3#top". now left.
Defined.

(** X4.  A request whose path ends in a slash (a directory), with or
    without a query string or fragment, gets no header from the hook, even
    when the directory is called [sw.js]. *)
Theorem directory_request_no_headers self d tail :
  path self = (d +:+ "/") +:+ tail ->
  "?"%char ∉ list_ascii_of_string d ->
  "#"%char ∉ list_ascii_of_string d ->
  cut_off tail ->
  request_basename self = ""
  /\ end_headers self = finalized self [].
Proof.
  intros Hp Hdq Hdf Htail.
  assert (Hb : request_basename self = "").
  { apply (request_basename_segment self d "" tail); auto;
      try (simpl; apply not_elem_of_nil). }
  split; [exact Hb|].
  rewrite end_headers_cases. unfold request_ext. rewrite Hb.
  rewrite (bool_decide_eq_false_2 _ (proj1 empty_not_special)).
  now rewrite (bool_decide_eq_false_2 _ (proj2 empty_not_special)).
Qed.

Lemma directory_request_no_headers_witness :
  end_headers (request "/app/sw.js/?x=1")
  = finalized (request "/app/sw.js/?x=1") [].
Proof.
  apply (directory_request_no_headers _ "/app/sw.js" "?x=1").
  - reflexivity.
  - apply (bool_decide_eq_false_1 _). vm_compute. reflexivity.
  - apply (bool_decide_eq_false_1 _). vm_compute. reflexivity.
  - right. exists "x=1". now left.
Defined.

(** X5.  The three no-cache headers go to no other request: when the hook
    adds them, the path is a directory prefix (empty or ending in a slash)
    followed by exactly [sw.js] or [manifest.json], followed by nothing or
    by a query string or fragment. *)
Theorem no_cache_only_for_named_files self :
  end_headers self = finalized self no_cache_headers ->
  exists d name tail,
    path self = (d +:+ name) +:+ tail
    /\ name ∈ NO_CACHE_FILES
    /\ (d = "" \/ exists d', d = d' +:+ "/")
    /\ cut_off tail.
Proof.
  intros H.
  assert (Hb : request_basename self ∈ NO_CACHE_FILES).
  { rewrite end_headers_cases in H. apply finalized_inj in H.
    destruct (decide (request_basename self ∈ NO_CACHE_FILES)) as [Hb|Hb];
      [exact Hb|].
    rewrite (bool_decide_eq_false_2 _ Hb) in H.
    destruct (bool_decide _); discriminate H. }
  destruct (split_cut_off (path self)) as (tail & Hp & Htail).
  unfold request_basename in Hb.
  set (front := (Py.split "#" (Py.split "?" (path self)).1).1) in *.
  destruct (basename_suffix front) as [Hf|[d' Hf]].
  - exists "", front, tail. rewrite app_empty.
    repeat split; auto. now rewrite Hf.
  - exists (d' +:+ "/"), (posixpath.basename front), tail.
    split; [|repeat split; eauto].
    rewrite Hp. f_equal. rewrite Hf at 1. now rewrite app_assoc_str.
Qed.

Lemma no_cache_only_for_named_files_witness :
  exists d name tail,
    path (request "/a/sw.js#x") = (d +:+ name) +:+ tail
    /\ name ∈ NO_CACHE_FILES
    /\ (d = "" \/ exists d', d = d' +:+ "/")
    /\ cut_off tail.
Proof.
  apply (no_cache_only_for_named_files (request "/a/sw.js#x")).
  vm_compute. reflexivity.
Defined.

End Classification.

(** * Extensions and letter case *)

Section ExtensionRules.

Implicit Types (self : handler) (root ext r e : string) (c : ascii).

Lemma revalidate_extension_dot ext :
  ext ∈ REVALIDATE_EXTENSIONS ->
  exists e, ext = String "." e /\ "."%char ∉ list_ascii_of_string e.
Proof.
  intros H. apply revalidate_extension_cases in H.
  destruct H as [->|[->| ->]]; eexists; (split; [reflexivity|]);
    simpl; intros H;
    repeat (apply elem_of_cons in H as [H|H]; [discriminate H|]);
    now apply elem_of_nil in H.
Qed.

(** X6.  The single revalidate header is added exactly when the basename
    is not in [NO_CACHE_FILES] and ends in [.js], [.css] or [.html] after a
    stem that holds something other than dots. *)
Theorem revalidate_iff_suffix self :
  end_headers self = finalized self revalidate_headers
  <-> (request_basename self ∉ NO_CACHE_FILES)
      /\ exists root ext,
           request_basename self = root +:+ ext
           /\ ext ∈ REVALIDATE_EXTENSIONS
           /\ exists x, x ∈ list_ascii_of_string root /\ x <> "."%char.
Proof.
  pose proof (request_basename_no_sep self) as Hsep.
  split.
  - intros H. rewrite end_headers_cases in H. apply finalized_inj in H.
    destruct (decide (request_basename self ∈ NO_CACHE_FILES)) as [Hb|Hb];
      [rewrite (bool_decide_eq_true_2 _ Hb) in H; discriminate H|].
    rewrite (bool_decide_eq_false_2 _ Hb) in H.
    destruct (decide (request_ext self ∈ REVALIDATE_EXTENSIONS)) as [He|He];
      [|rewrite (bool_decide_eq_false_2 _ He) in H; discriminate H].
    split; [exact Hb|].
    unfold request_ext in He.
    destruct (splitext_shape _ Hsep) as [Hs|(r & e & Hr & _ & Hx & Hs)];
      rewrite Hs in He; simpl in He.
    + now apply empty_not_special in He.
    + exists r, (String "." e). now repeat split.
  - intros (Hb & root & ext & Hr & He & Hx).
    destruct (revalidate_extension_dot ext He) as (e & -> & Hdot).
    rewrite Hr in Hsep.
    rewrite end_headers_cases.
    rewrite (bool_decide_eq_false_2 _ Hb).
    unfold request_ext.
    rewrite Hr, (splitext_last_dot root e Hsep Hdot Hx). simpl snd.
    now rewrite (bool_decide_eq_true_2 _ He).
Qed.

Lemma revalidate_iff_suffix_witness :
  end_headers (request "/js/vendor/jquery-3.7.min.js?cb=1")
  = finalized (request "/js/vendor/jquery-3.7.min.js?cb=1") revalidate_headers.
Proof.
  apply (revalidate_iff_suffix (request "/js/vendor/jquery-3.7.min.js?cb=1")).
  split.
  - apply (bool_decide_eq_false_1 _). vm_compute. reflexivity.
  - exists "jquery-3.7.min", ".js". split; [reflexivity|]. split.
    + apply (bool_decide_eq_true_1 _). vm_compute. reflexivity.
    + exists "j"%char. split; [simpl; apply elem_of_cons; now left|discriminate].
Defined.

(** X7.  A basename made of dots up to its last dot ([..js], [...css])
    has an empty extension and gets no header. *)
Theorem leading_dots_no_headers self r e :
  request_basename self = r +:+ "." +:+ e ->
  Py.all_char "." r = true ->
  "."%char ∉ list_ascii_of_string e ->
  request_ext self = ""
  /\ end_headers self = finalized self [].
Proof.
  intros Hb Hr He.
  pose proof (request_basename_no_sep self) as Hsep.
  rewrite app_cons, app_empty in Hb.
  assert (Hext : request_ext self = "").
  { unfold request_ext. rewrite Hb in *.
    now rewrite (splitext_leading_dots r e Hsep He Hr). }
  split; [exact Hext|].
  assert (Hn : request_basename self ∉ NO_CACHE_FILES).
  { rewrite Hb. destruct r as [|a r]; [apply dot_name_not_no_cache|].
    simpl in Hr. apply andb_true_iff in Hr as [Ha _].
    apply Ascii.eqb_eq in Ha. subst a. rewrite app_cons.
    apply dot_name_not_no_cache. }
  rewrite end_headers_cases, Hext.
  rewrite (bool_decide_eq_false_2 _ Hn).
  now rewrite (bool_decide_eq_false_2 _ (proj2 empty_not_special)).
Qed.

Lemma leading_dots_no_headers_witness :
  request_ext (request "/assets/...css") = ""
  /\ end_headers (request "/assets/...css")
     = finalized (request "/assets/...css") [].
Proof.
  apply (leading_dots_no_headers (request "/assets/...css") ".." "css").
  - reflexivity.
  - reflexivity.
  - intros H. simpl in H.
    repeat (apply elem_of_cons in H as [H|H]; [discriminate H|]).
    now apply elem_of_nil in H.
Defined.

Lemma no_upper_in_chars c (l : list ascii) :
  forallb (fun x => negb (is_upper x)) l = true ->
  c ∈ l -> is_upper c = false.
Proof.
  intros Hall Hc. apply list_elem_of_In in Hc.
  apply negb_true_iff. exact (proj1 (forallb_forall _ _) Hall c Hc).
Qed.

Lemma no_cache_lines_basename self :
  end_headers self = finalized self no_cache_headers ->
  request_basename self ∈ NO_CACHE_FILES.
Proof.
  intros H. rewrite end_headers_cases in H. apply finalized_inj in H.
  destruct (decide (request_basename self ∈ NO_CACHE_FILES)) as [Hb|Hb];
    [exact Hb|].
  rewrite (bool_decide_eq_false_2 _ Hb) in H.
  destruct (bool_decide _); discriminate H.
Qed.

(** X8.  Matching is case-sensitive.  A capital letter anywhere in the
    basename rules out the no-cache headers, and a capital letter in the
    extension ([.JS], [.Html]) rules out every header. *)
Theorem capital_letters_do_not_match self c :
  is_upper c = true ->
  (c ∈ list_ascii_of_string (request_basename self) ->
   end_headers self <> finalized self no_cache_headers)
  /\ (c ∈ list_ascii_of_string (request_ext self) ->
      end_headers self = finalized self []).
Proof.
  intros Hup.
  assert (Hnames : forall b, b ∈ NO_CACHE_FILES ->
            (c ∉ list_ascii_of_string b)
            /\ (c ∉ list_ascii_of_string (posixpath.splitext b).2)).
  { intros b Hb. apply no_cache_file_cases in Hb.
    destruct Hb as [->| ->]; split; intros Hc;
      apply no_upper_in_chars in Hc; try congruence; reflexivity. }
  split.
  - intros Hc H. apply no_cache_lines_basename in H.
    destruct (Hnames _ H) as [Hn _]. contradiction.
  - intros Hc.
    assert (Hb : request_basename self ∉ NO_CACHE_FILES).
    { intros Hb. destruct (Hnames _ Hb) as [_ Hn]. contradiction. }
    assert (He : request_ext self ∉ REVALIDATE_EXTENSIONS).
    { intros He. apply revalidate_extension_cases in He.
      destruct He as [He|[He|He]]; rewrite He in Hc;
        apply no_upper_in_chars in Hc; try congruence; reflexivity. }
    rewrite end_headers_cases.
    now rewrite (bool_decide_eq_false_2 _ Hb), (bool_decide_eq_false_2 _ He).
Qed.

Lemma capital_letters_do_not_match_witness :
  end_headers (request "/SW.JS") = finalized (request "/SW.JS") []
  /\ end_headers (request "/Sw.js")
     <> finalized (request "/Sw.js") no_cache_headers.
Proof.
  split.
  - apply (capital_letters_do_not_match (request "/SW.JS") "J" eq_refl).
    apply (bool_decide_eq_true_1 _). vm_compute. reflexivity.
  - apply (capital_letters_do_not_match (request "/Sw.js") "S" eq_refl).
    apply (bool_decide_eq_true_1 _). vm_compute. reflexivity.
Defined.

End ExtensionRules.

(** * More on the log filter *)

Section LogFilterEdges.

Implicit Types (self : handler) (format : string) (args : list Py.object).

Lemma log_message_short format args self :
  (length args <= 1)%nat -> log_message format args self = self.
Proof.
  intros H. unfold log_message.
  destruct (Z.ltb_spec 1 (Z.of_nat (length args))); [lia | reflexivity].
Qed.

(** X9.  What the filter drops besides successful requests: a message
    with fewer than two arguments, a message whose second argument is not
    a string (the integer 404 included), and the [code %d, message %s]
    line of [send_error], whose second argument is the message text and
    not the code, unless that text starts with [4] or [5]. *)
Theorem log_filter_drops self format :
  (forall args, (length args <= 1)%nat -> log_message format args self = self)
  /\ (forall first second rest,
        (forall s, second <> Py.Str s) ->
        log_message format (first :: second :: rest) self = self)
  /\ (forall code message,
        error_status message = false ->
        log_error GridDownHandler "code %d, message %s"
          [Py.Int code; Py.Str message] self = self).
Proof.
  split; [|split].
  - intros args H. now apply log_message_short.
  - intros first second rest Hs. unfold log_message.
    destruct (Z.ltb_spec 1 (Z.of_nat (length (first :: second :: rest))));
      [|simpl length in *; lia].
    simpl nth. destruct second as [s| |]; [|reflexivity|reflexivity].
    now destruct (Hs s).
  - intros code message H. unfold log_error, GridDownHandler.
    simpl cls_log_message. rewrite log_message_status.
    fold (error_status message). now rewrite H.
Qed.

Lemma log_filter_drops_witness :
  stderr (log_message "Request timed out: %r" [Py.Str "timeout"]
            (request "/")) = []
  /\ stderr (log_message "%s %s" [Py.Str "GET /x"; Py.Int 404]
               (request "/x")) = []
  /\ stderr (log_error GridDownHandler "code %d, message %s"
               [Py.Int 404; Py.Str "File not found"] (request "/x")) = [].
Proof.
  destruct (log_filter_drops (request "/") "Request timed out: %r")
    as (H1 & _ & _).
  destruct (log_filter_drops (request "/x") "%s %s") as (_ & H2 & _).
  destruct (log_filter_drops (request "/x") "code %d, message %s")
    as (_ & _ & H3).
  split; [|split].
  - rewrite H1; [reflexivity | simpl; lia].
  - rewrite H2; [reflexivity | discriminate].
  - rewrite H3; reflexivity.
Defined.

(** X10.  Logging and header writing do not interfere: [log_message]
    leaves the path, the request line, the header buffer and the written
    response as they are and only appends to the log, at most one entry;
    and it commutes with the header hook. *)
Theorem log_message_leaves_response self format args :
  path (log_message format args self) = path self
  /\ requestline (log_message format args self) = requestline self
  /\ headers_buffer (log_message format args self) = headers_buffer self
  /\ wfile (log_message format args self) = wfile self
  /\ (exists new,
        stderr (log_message format args self) = stderr self ++ new
        /\ (length new <= 1)%nat)
  /\ end_headers (log_message format args self)
     = log_message format args (end_headers self).
Proof.
  assert (H : log_message format args self = self
              \/ log_message format args self
                 = super_log_message format args self).
  { unfold log_message.
    destruct (if 1 <? Z.of_nat (length args) then _ else _);
      [destruct (_ || _)|..]; auto. }
  assert (H' : log_message format args (end_headers self) = end_headers self
               /\ log_message format args self = self
               \/ log_message format args (end_headers self)
                  = super_log_message format args (end_headers self)
                  /\ log_message format args self
                     = super_log_message format args self).
  { unfold log_message.
    destruct (if 1 <? Z.of_nat (length args) then _ else _);
      [destruct (_ || _)|..]; auto. }
  repeat split; try (destruct H as [-> | ->]; reflexivity).
  - destruct H as [-> | ->].
    + exists []. split; [now rewrite app_nil_r | simpl; lia].
    + exists [(format, args)]. split; [reflexivity | simpl; lia].
  - destruct H' as [[-> ->] | [-> ->]]; [reflexivity|].
    rewrite !end_headers_cases. reflexivity.
Qed.

End LogFilterEdges.

(** * The serve directory *)

Section ServeDirectory.

Implicit Types (c a : ascii) (s d f h x y b : string).

Lemma endswith_cons a x c : x <> "" -> Py.endswith (String a x) c = Py.endswith x c.
Proof. destruct x; [congruence | reflexivity]. Qed.

Lemma endswith_app x y c : y <> "" -> Py.endswith (x +:+ y) c = Py.endswith y c.
Proof.
  intros Hy. induction x as [|a x IH]; [reflexivity|].
  rewrite app_cons, endswith_cons; [exact IH|].
  destruct x; [rewrite app_empty; exact Hy | rewrite app_cons; discriminate].
Qed.

Lemma endswith_absent s c :
  c ∉ list_ascii_of_string s -> Py.endswith s c = false.
Proof.
  induction s as [|a s IH]; [reflexivity|].
  intros Hn. simpl in Hn. apply not_elem_of_cons in Hn as [Hne Hn].
  destruct s as [|b s].
  - simpl. destruct (Ascii.eqb_spec a c); congruence.
  - rewrite endswith_cons by discriminate. now apply IH.
Qed.

Lemma endswith_inv s c :
  Py.endswith s c = true -> exists s', s = s' +:+ String c "".
Proof.
  induction s as [|a s IH]; [discriminate|].
  destruct s as [|b s].
  - simpl. intros H. apply Ascii.eqb_eq in H. subst a. now exists "".
  - rewrite endswith_cons by discriminate. intros H.
    destruct (IH H) as [s' Hs]. exists (String a s').
    rewrite app_cons. now rewrite <- Hs.
Qed.

Lemma all_char_app c x y :
  Py.all_char c (x +:+ y) = Py.all_char c x && Py.all_char c y.
Proof.
  induction x as [|a x IH]; [reflexivity|].
  rewrite app_cons. simpl. rewrite IH. now rewrite andb_assoc.
Qed.

Lemma all_char_last x c :
  x <> "" -> Py.endswith x c = false -> Py.all_char c x = false.
Proof.
  induction x as [|a x IH]; [congruence|]. intros _.
  destruct x as [|b x].
  - simpl. now intros ->.
  - rewrite endswith_cons by discriminate. intros H.
    change (Py.all_char c (String a (String b x)))
      with (Ascii.eqb a c && Py.all_char c (String b x)).
    rewrite IH by (auto; discriminate). apply andb_false_r.
Qed.

Lemma rstrip_app_sep x c :
  x <> "" -> Py.endswith x c = false ->
  Py.rstrip (x +:+ String c "") c = x.
Proof.
  induction x as [|a x IH]; [congruence|]. intros _.
  destruct x as [|b x].
  - simpl. intros Ha. rewrite Ascii.eqb_refl. now rewrite Ha.
  - rewrite endswith_cons by discriminate. intros H.
    rewrite app_cons.
    change (Py.rstrip (String a (String b x +:+ String c "")) c)
      with (match Py.rstrip (String b x +:+ String c "") c with
            | "" => if Ascii.eqb a c then "" else String a ""
            | r' => String a r'
            end).
    now rewrite IH by (auto; discriminate).
Qed.

(** [dirname] of a file in a directory whose name does not end in a
    slash is that directory. *)
Lemma dirname_file h f :
  h <> "" -> Py.endswith h "/" = false ->
  "/"%char ∉ list_ascii_of_string f ->
  posixpath.dirname (h +:+ String "/" f) = h.
Proof.
  intros Hne Hend Hf. unfold posixpath.dirname.
  rewrite (rfind_app_last _ _ _ Hf).
  replace (h +:+ String "/" f) with ((h +:+ "/") +:+ f)
    by now rewrite app_assoc_str.
  replace (Py.len h + 1) with (Py.len (h +:+ "/"))
    by (rewrite len_app, len_cons; change (Py.len "") with 0; lia).
  rewrite slice_to_app.
  rewrite all_char_app, (all_char_last h "/" Hne Hend). simpl andb.
  replace (String.eqb (h +:+ "/") "") with false.
  - simpl. now apply rstrip_app_sep.
  - symmetry. apply String.eqb_neq. destruct h; [congruence | discriminate].
Qed.

(** X11.  Without [--dir], or with an empty one, the directory served is
    the parent of the directory that holds the script, and the marker
    looked for is [sw.js] directly inside it. *)
Theorem default_serve_dir_is_script_parent (opts : args) (env : os_env) d s f :
  dir opts = None \/ dir opts = Some "" ->
  abspath_file env = d +:+ "/" +:+ s +:+ "/" +:+ f ->
  d <> "" -> Py.endswith d "/" = false ->
  s <> "" -> "/"%char ∉ list_ascii_of_string s ->
  "/"%char ∉ list_ascii_of_string f ->
  serve_dir opts env = d
  /\ posixpath.join (serve_dir opts env) "sw.js" = d +:+ "/sw.js".
Proof.
  intros Hdir Hfile Hd Hdend Hs Hsl Hf.
  assert (Hserve : serve_dir opts env = d).
  { assert (Hdef : posixpath.dirname (posixpath.dirname (abspath_file env)) = d).
    { rewrite Hfile.
      replace (d +:+ "/" +:+ s +:+ "/" +:+ f)
        with ((d +:+ String "/" s) +:+ String "/" f)
        by now rewrite app_assoc_str.
      rewrite dirname_file; [now apply dirname_file| | |exact Hf].
      - destruct d; [congruence | discriminate].
      - rewrite endswith_app by discriminate.
        rewrite endswith_cons by exact Hs. now apply endswith_absent. }
    unfold serve_dir. destruct Hdir as [-> | ->]; exact Hdef. }
  split; [exact Hserve|].
  rewrite Hserve. unfold posixpath.join.
  change (Py.startswith "sw.js" "/") with false. cbv iota.
  rewrite Hdend, orb_false_r.
  replace (String.eqb d "") with false; [reflexivity|].
  symmetry. now apply String.eqb_neq.
Qed.

Lemma default_serve_dir_is_script_parent_witness :
  serve_dir (mkArgs 8080 None false) sample_env = "/opt/tools"
  /\ posixpath.join (serve_dir (mkArgs 8080 None false) sample_env) "sw.js"
     = "/opt/tools/sw.js".
Proof.
  apply (default_serve_dir_is_script_parent (mkArgs 8080 None false)
           sample_env "/opt/tools" "scripts" "griddown-server.py").
  - now left.
  - reflexivity.
  - discriminate.
  - reflexivity.
  - discriminate.
  - apply (bool_decide_eq_false_1 _). vm_compute. reflexivity.
  - apply (bool_decide_eq_false_1 _). vm_compute. reflexivity.
Defined.

(** X12.  Whatever the serve directory is written like (empty, with or
    without a closing slash), the file whose presence start-up checks is
    named [sw.js]: the basename of the path joined for the check is the
    joined name. *)
Theorem marker_path_basename d b :
  "/"%char ∉ list_ascii_of_string b ->
  posixpath.basename (posixpath.join d b) = b.
Proof.
  intros Hb. unfold posixpath.join.
  assert (Hstart : Py.startswith b "/" = false).
  { destruct b as [|a b]; [reflexivity|].
    simpl in Hb. apply not_elem_of_cons in Hb as [Ha _].
    unfold Py.startswith. cbn [String.prefix].
    destruct (ascii_dec "/" a); [congruence | reflexivity]. }
  rewrite Hstart.
  destruct (String.eqb_spec d "") as [->|Hd]; simpl orb.
  - rewrite app_empty. now apply basename_absent.
  - destruct (Py.endswith d "/") eqn:Hend.
    + destruct (endswith_inv _ _ Hend) as [d' ->].
      rewrite app_assoc_str, app_cons, app_empty.
      now apply basename_app_sep.
    + rewrite app_cons, app_empty. now apply basename_app_sep.
Qed.

Lemma marker_path_basename_witness :
  posixpath.basename (posixpath.join "/srv/GridDown/" "sw.js") = "sw.js".
Proof.
  apply (marker_path_basename "/srv/GridDown/" "sw.js").
  apply (bool_decide_eq_false_1 _). vm_compute. reflexivity.
Defined.

End ServeDirectory.

(** * The hook at any point of a connection *)

Section AnyInstance.

Implicit Types (self : Server.instance) (p : string) (added : list line).

Lemma version_test_spec self :
  Server.request_version self <> "HTTP/0.9" ->
  negb (String.eqb (Server.request_version self) "HTTP/0.9") = true.
Proof.
  intros H. apply negb_true_iff. now apply String.eqb_neq.
Qed.

(** Once the path is set and the request is not an HTTP/0.9 one, the hook
    on an instance is [end_headers] on the handler. *)
Lemma end_headers_refines self p :
  Server.path self = Some p ->
  Server.request_version self <> "HTTP/0.9" ->
  Server.end_headers self
  = Server.Returns
      (of_handler (Server.request_version self)
         (end_headers (to_handler p self))).
Proof.
  intros Hp Hv. apply version_test_spec in Hv.
  unfold Server.end_headers, end_headers, request_basename.
  rewrite Hp. simpl path.
  destruct (posixpath.splitext _) as [root ext].
  destruct (bool_decide _); [|destruct (bool_decide _)];
    unfold then_, pass, send_header, super_end_headers, of_handler,
      to_handler, Server.super_end_headers, Server.send_header;
    simpl; rewrite ?Hv; simpl; rewrite ?Hv; simpl; rewrite ?Hv; simpl;
    rewrite ?Hv; simpl; now rewrite Hp.
Qed.

(** What the hook adds, as a function of the path. *)
Lemma added_lines_by_path p :
  exists added,
    (forall self,
       Server.path self = Some p ->
       Server.request_version self <> "HTTP/0.9" ->
       exists out,
         Server.end_headers self = Server.Returns out
         /\ Server.wfile out
            = Server.wfile self ++ Server.headers_buffer self
              ++ added ++ [EndOfHeaders]
         /\ Server.headers_buffer out = [])
    /\ (p = "/missing.js" -> added = [HeaderLine "Cache-Control" "no-cache"])
    /\ (p = "/sw.js" -> added = no_cache_headers).
Proof.
  destruct (end_headers_path_only p) as [added H].
  exists added. split; [|split].
  - intros self Hp Hv. eexists. split; [exact (end_headers_refines self p Hp Hv)|].
    rewrite (H (to_handler p self) eq_refl). now split.
  - intros ->. pose proof (H (request "/missing.js") eq_refl) as H1.
    rewrite end_headers_cases in H1. apply finalized_inj in H1.
    now rewrite <- H1.
  - intros ->. pose proof (H (request "/sw.js") eq_refl) as H1.
    rewrite end_headers_cases in H1. apply finalized_inj in H1.
    now rewrite <- H1.
Qed.

(** C9, as amended.  While [self.path] is set and the request is not an
    HTTP/0.9 one, the hook adds its lines to every response whatever the
    status line in the buffer: the lines depend on [self.path] only.  A
    404 for [/missing.js] carries [Cache-Control: no-cache], and a 404 for
    [/sw.js] carries the three no-cache headers. *)
Theorem parsed_request_headers_regardless_of_status self p code message rest :
  Server.path self = Some p ->
  Server.request_version self <> "HTTP/0.9" ->
  Server.headers_buffer self = StatusLine code message :: rest ->
  exists added out,
    Server.end_headers self = Server.Returns out
    /\ Server.wfile out
       = Server.wfile self ++ StatusLine code message :: rest
         ++ added ++ [EndOfHeaders]
    /\ (forall self',
          Server.path self' = Some p ->
          Server.request_version self' <> "HTTP/0.9" ->
          exists out',
            Server.end_headers self' = Server.Returns out'
            /\ Server.wfile out'
               = Server.wfile self' ++ Server.headers_buffer self'
                 ++ added ++ [EndOfHeaders])
    /\ (p = "/missing.js" -> added = [HeaderLine "Cache-Control" "no-cache"])
    /\ (p = "/sw.js" -> added = no_cache_headers).
Proof.
  intros Hp Hv Hbuf.
  destruct (added_lines_by_path p) as (added & Hall & Hmissing & Hsw).
  destruct (Hall self Hp Hv) as (out & Hout & Hw & _).
  exists added, out. split; [exact Hout|]. split.
  - rewrite Hw, Hbuf. reflexivity.
  - split; [|now split].
    intros self' Hp' Hv'.
    destruct (Hall self' Hp' Hv') as (out' & Hout' & Hw' & _).
    now exists out'.
Qed.

Lemma parsed_request_headers_regardless_of_status_witness :
  (exists out,
     Server.end_headers (responding_http11 "/missing.js" 404 "File not found")
     = Server.Returns out
     /\ Server.wfile out
        = [ StatusLine 404 "File not found";
            HeaderLine "Server" "SimpleHTTP/0.6";
            HeaderLine "Cache-Control" "no-cache"; EndOfHeaders ])
  /\ (exists out,
     Server.end_headers (responding_http11 "/sw.js" 404 "File not found")
     = Server.Returns out
     /\ Server.wfile out
        = [ StatusLine 404 "File not found";
            HeaderLine "Server" "SimpleHTTP/0.6";
            HeaderLine "Cache-Control" "no-cache, no-store, must-revalidate";
            HeaderLine "Pragma" "no-cache"; HeaderLine "Expires" "0";
            EndOfHeaders ]).
Proof.
  split.
  - destruct (parsed_request_headers_regardless_of_status
                (responding_http11 "/missing.js" 404 "File not found")
                "/missing.js" 404 "File not found"
                [HeaderLine "Server" "SimpleHTTP/0.6"]
                eq_refl ltac:(discriminate) eq_refl)
      as (added & out & Hout & Hw & _ & Hadded & _).
    exists out. split; [exact Hout|].
    rewrite Hw, (Hadded eq_refl). reflexivity.
  - destruct (parsed_request_headers_regardless_of_status
                (responding_http11 "/sw.js" 404 "File not found")
                "/sw.js" 404 "File not found"
                [HeaderLine "Server" "SimpleHTTP/0.6"]
                eq_refl ltac:(discriminate) eq_refl)
      as (added & out & Hout & Hw & _ & _ & Hadded).
    exists out. split; [exact Hout|].
    rewrite Hw, (Hadded eq_refl). reflexivity.
Defined.

(** C9 fails as it is written.  The 404 that answers the HTTP/0.9 request
    [GET /missing.js] goes out with no header line at all: the hook
    returns with the instance unchanged.  And the 414 that answers an
    over-long request line is sent before [self.path] exists: the hook
    raises [AttributeError] and writes nothing. *)
Lemma headers_regardless_of_status_counterexample :
  Server.end_headers simple_request_not_found
  = Server.Returns simple_request_not_found
  /\ Server.wfile simple_request_not_found = []
  /\ Server.end_headers uri_too_long
     = Server.Raises "AttributeError" uri_too_long
  /\ Server.wfile uri_too_long = [].
Proof. vm_compute. repeat split; reflexivity. Qed.


End AnyInstance.
